(** * Verification of the document-management backend (src/main.py, src/crud.py)

    Shallow embedding of the request handlers, the persistence helpers of
    [crud.py], the in-memory ingestion tracker of [main.py] and, modelled
    from the spec, the credential service of the missing [auth.py]. *)

From stdpp Require Import base gmap strings list pretty.
From Stdlib Require Import ZArith Ascii String Lia.

Open Scope Z_scope.
Open Scope string_scope.

(* ------------------------------------------------------------------ *)
(** ** Schemas (src/schemas.py) *)

(** [class IngestionTask(BaseModel)]: document_id, status (a str, default
    "pending"), optional message. *)
Record IngestionTask := mkIngestionTask {
  task_document_id : Z;
  task_status : string;
  task_message : option string
}.

(** Errors surfaced to the client: [HTTPException(status_code, detail)]. *)
Record HTTPException := mkHTTPException {
  status_code : Z;
  detail : string
}.

(** A handler either returns a value or raises an [HTTPException]. *)
Inductive result (A : Type) :=
| Ok (a : A)
| Raise (e : HTTPException).
Arguments Ok {A} a.
Arguments Raise {A} e.

(* ------------------------------------------------------------------ *)
(** ** Ingestion tracker (src/main.py, lines 136-183) *)

Module Ingestion.

(** [ingestion_tasks: Dict[int, schemas.IngestionTask] = {}] *)
Abbreviation tasks := (gmap Z IngestionTask).

(** Python's [x in ["pending", "processing"]]. *)
Definition running_status (s : string) : bool :=
  String.eqb s "pending" || String.eqb s "processing".

(** Lines 165-176 of [trigger_ingestion], after the document lookup: the
    check, the insertion of the fresh task and its return (the call to
    [background_tasks.add_task] is recorded as the id to run). *)
Definition trigger (document_id : Z) (ingestion_tasks : tasks)
  : result (IngestionTask * tasks) :=
  match ingestion_tasks !! document_id with
  | Some t =>
      if running_status (task_status t)
      then Raise (mkHTTPException 400
             ("Ingestion for document ID " ++ pretty document_id ++ " is already "
                ++ task_status t ++ "."))
      else
        let ingestion_task := mkIngestionTask document_id "pending" None in
        Ok (ingestion_task, <[document_id := ingestion_task]> ingestion_tasks)
  | None =>
      let ingestion_task := mkIngestionTask document_id "pending" None in
      Ok (ingestion_task, <[document_id := ingestion_task]> ingestion_tasks)
  end.

(** [trigger_ingestion] as a whole: 404 when the document row is absent,
    then [trigger]. [doc_exists] stands for [crud.get_document(...) is not
    None]. *)
Definition trigger_ingestion (doc_exists : Z -> bool) (document_id : Z)
    (ingestion_tasks : tasks) : result (IngestionTask * tasks) :=
  if doc_exists document_id then trigger document_id ingestion_tasks
  else Raise (mkHTTPException 404 "Document not found").

(** [ingestion_tasks[document_id].<field> = v]: a [KeyError] ([None]) when
    the key is absent, otherwise the stored object is mutated in place. *)
Definition set_field (f : IngestionTask -> IngestionTask) (document_id : Z)
    (ingestion_tasks : tasks) : option tasks :=
  match ingestion_tasks !! document_id with
  | Some t => Some (<[document_id := f t]> ingestion_tasks)
  | None => None
  end.

Definition with_status (s : string) (t : IngestionTask) : IngestionTask :=
  mkIngestionTask (task_document_id t) s (task_message t).

Definition with_message (m : string) (t : IngestionTask) : IngestionTask :=
  mkIngestionTask (task_document_id t) (task_status t) (Some m).

(** [process_ingestion_task]: the successive contents of the mapping after
    each of its three assignments (lines 143, 147 and 148), in order; the
    [time.sleep] and the prints do not touch the mapping. The empty trace
    is the [else] branch (print only). [None] would be a [KeyError]. *)
Definition process_ingestion_task (document_id : Z) (ingestion_tasks : tasks)
  : option (list tasks) :=
  match ingestion_tasks !! document_id with
  | Some _ =>
      m1 ← set_field (with_status "processing") document_id ingestion_tasks;
      m2 ← set_field (with_status "completed") document_id m1;
      m3 ← set_field (with_message "Ingestion completed successfully.")
             document_id m2;
      Some [m1; m2; m3]
  | None => Some []
  end.

(** The mapping once the body has run. *)
Definition run_final (document_id : Z) (ingestion_tasks : tasks) : option tasks :=
  match process_ingestion_task document_id ingestion_tasks with
  | Some tr => Some (default ingestion_tasks (last tr))
  | None => None
  end.

(** [get_ingestion_status]: returns the mapping itself. *)
Definition get_ingestion_status (ingestion_tasks : tasks) : tasks :=
  ingestion_tasks.

(** Every interleaving of requests and background runs. A background run
    may be interrupted between any two of its assignments (a status query
    can be served by the thread pool meanwhile), so each intermediate
    state of the trace is a reachable state. *)
Inductive step (doc_exists : Z -> bool) : tasks -> tasks -> Prop :=
| step_trigger d m t m' :
    trigger_ingestion doc_exists d m = Ok (t, m') -> step doc_exists m m'
| step_run d m tr m' :
    process_ingestion_task d m = Some tr -> m' ∈ tr -> step doc_exists m m'
| step_status m :
    step doc_exists m (get_ingestion_status m).

Inductive reachable (doc_exists : Z -> bool) : tasks -> Prop :=
| reach_init : reachable doc_exists ∅
| reach_step m m' : reachable doc_exists m -> step doc_exists m m' ->
    reachable doc_exists m'.

End Ingestion.

(* ------------------------------------------------------------------ *)
(** ** Users and documents (src/models.py, src/crud.py, src/main.py) *)

Module Store.

(** [class User(Base)]: the table row. [role] is a [String] column with
    default "viewer"; nothing restricts its value. *)
Record User := mkUser {
  id : Z;
  username : string;
  email : string;
  hashed_password : string;
  is_active : bool;
  role : string
}.

(** [class Document(Base)]. [owner_id] is a nullable foreign key
    ([Column(Integer, ForeignKey("users.id"))]): [None] is SQL NULL. *)
Record Document := mkDocument {
  doc_id : Z;
  title : string;
  filename : string;
  upload_time : Z;
  owner_id : option Z
}.

(** Validation of a returned row against the response model
    [schemas.Document] ([owner_id: int], the other fields never NULL): it
    fails exactly when [owner_id] is NULL, and FastAPI then answers 500. *)
Definition document_response_ok (d : Document) : bool :=
  match owner_id d with Some _ => true | None => false end.


(** An exception escaping a handler: Starlette's 500 response. *)
Definition internal_error : HTTPException :=
  mkHTTPException 500 "Internal Server Error".

(** [schemas.UserCreate]: [role: Optional[str] = "viewer"], so [None] is a
    client-supplied JSON null and an omitted role is [Some "viewer"]. *)
Record UserCreate := mkUserCreate {
  uc_username : string;
  uc_email : string;
  uc_password : string;
  uc_role : option string
}.

(** The request body with the role field omitted. *)
Definition user_create_default (u e p : string) : UserCreate :=
  mkUserCreate u e p (Some "viewer").

(** The two tables, keyed by their integer primary keys, with the next
    autoincrement values. *)
Record DB := mkDB {
  users : gmap Z User;
  next_user_id : Z;
  documents : gmap Z Document;
  next_document_id : Z
}.

(** [query(...).filter(...).first()] on the users table. *)
Definition first_user (p : User -> bool) (db : DB) : option User :=
  head (List.filter p (map snd (map_to_list (users db)))).

Definition get_user (db : DB) (user_id : Z) : option User :=
  users db !! user_id.

Definition get_user_by_username (db : DB) (name : string) : option User :=
  first_user (fun u => String.eqb (username u) name) db.

Definition get_user_by_email (db : DB) (mail : string) : option User :=
  first_user (fun u => String.eqb (email u) mail) db.

(** The blob store: [settings.documents_upload_path], keyed by filename. *)
Abbreviation blobs := (gmap string (list Byte.byte)).

Section Crud.

(** [get_password_hash] of the (absent) [auth.py]: any function. *)
Variable get_password_hash : string -> string.
(** [default=datetime.now(UTC)] of [Document.upload_time], evaluated once
    when the model module is loaded. *)
Variable upload_time_default : Z.

(** [crud.create_user]. [is_active] takes its column default [True]. The
    ORM leaves a [None] attribute out of the INSERT, so a null role takes
    the column default "viewer". *)
Definition create_user (db : DB) (user : UserCreate) : User * DB :=
  let db_user := mkUser (next_user_id db) (uc_username user) (uc_email user)
                   (get_password_hash (uc_password user)) true
                   (default "viewer" (uc_role user)) in
  (db_user, mkDB (<[next_user_id db := db_user]> (users db))
                 (next_user_id db + 1) (documents db) (next_document_id db)).

Definition set_role (r : string) (u : User) : User :=
  mkUser (id u) (username u) (email u) (hashed_password u) (is_active u) r.

(** [crud.update_user_role]. *)
Definition crud_update_user_role (db : DB) (user_id : Z) (r : string)
  : option User * DB :=
  match get_user db user_id with
  | Some db_user =>
      (Some (set_role r db_user),
       mkDB (<[user_id := set_role r db_user]> (users db)) (next_user_id db)
            (documents db) (next_document_id db))
  | None => (None, db)
  end.

(** What the flush of [db.delete(db_user)] does to a document: the
    one-to-many [User.documents] has the default cascade (no "delete") and
    no [passive_deletes], so the ORM loads the user's documents and sets
    their [owner_id] to NULL before deleting the user row. *)
Definition orphan_owner (user_id : Z) (d : Document) : Document :=
  match owner_id d with
  | Some o => if Z.eqb o user_id
              then mkDocument (doc_id d) (title d) (filename d) (upload_time d) None
              else d
  | None => d
  end.

(** [crud.delete_user]. *)
Definition crud_delete_user (db : DB) (user_id : Z) : option User * DB :=
  match get_user db user_id with
  | Some db_user =>
      (Some db_user, mkDB (delete user_id (users db)) (next_user_id db)
                          (orphan_owner user_id <$> documents db)
                          (next_document_id db))
  | None => (None, db)
  end.

Definition get_document (db : DB) (document_id : Z) : option Document :=
  documents db !! document_id.


(** [crud.create_document]. *)
Definition crud_create_document (db : DB) (t : string) (owner : Z)
    (fname : string) : Document * DB :=
  let db_document := mkDocument (next_document_id db) t fname
                       upload_time_default (Some owner) in
  (db_document, mkDB (users db) (next_user_id db)
       (<[next_document_id db := db_document]> (documents db))
       (next_document_id db + 1)).

(** [crud.delete_document]. *)
Definition crud_delete_document (db : DB) (document_id : Z)
  : option Document * DB :=
  match get_document db document_id with
  | Some d => (Some d, mkDB (users db) (next_user_id db)
                            (delete document_id (documents db))
                            (next_document_id db))
  | None => (None, db)
  end.

(** *** Handlers of main.py. [current_user] is the user resolved by
    [get_current_active_user]. *)

(** [create_user] (POST /users/). *)
Definition create_user_handler (user : UserCreate) (db : DB) : result (User * DB) :=
  match get_user_by_username db (uc_username user) with
  | Some _ => Raise (mkHTTPException 400 "Username already registered")
  | None =>
      match get_user_by_email db (uc_email user) with
      | Some _ => Raise (mkHTTPException 400 "Email already registered")
      | None => Ok (create_user db user)
      end
  end.

(** [update_user_role] (PUT /users/{user_id}/role); [role_update] is the
    [UserRoleUpdate.role] string. *)
Definition update_user_role (user_id : Z) (role_update : string)
    (current_user : User) (db : DB) : result (User * DB) :=
  if negb (String.eqb (role current_user) "admin")
  then Raise (mkHTTPException 403 "Not authorized to update user roles")
  else
    match crud_update_user_role db user_id role_update with
    | (None, _) => Raise (mkHTTPException 404 "User not found")
    | (Some db_user, db') => Ok (db_user, db')
    end.

(** [delete_user] (DELETE /users/{user_id}). *)
Definition delete_user (user_id : Z) (current_user : User) (db : DB)
  : result (User * DB) :=
  if negb (String.eqb (role current_user) "admin")
  then Raise (mkHTTPException 403 "Not authorized to delete users")
  else
    match crud_delete_user db user_id with
    | (None, _) => Raise (mkHTTPException 404 "User not found")
    | (Some db_user, db') => Ok (db_user, db')
    end.

(** Python's [s.split(".")]. *)
Fixpoint split_dot (s : string) : list string :=
  match s with
  | EmptyString => [EmptyString]
  | String c rest =>
      if Ascii.eqb c "." then EmptyString :: split_dot rest
      else match split_dot rest with
           | w :: ws => String c w :: ws
           | [] => [String c EmptyString]
           end
  end.

(** Python's ["." in s]. *)
Fixpoint has_dot (s : string) : bool :=
  match s with
  | EmptyString => false
  | String c rest => Ascii.eqb c "." || has_dot rest
  end.

(** Line 108: [file.filename.split(".")[0] if "." in file.filename else
    file.filename]. *)
Definition document_title (fname : string) : string :=
  if has_dot fname then default EmptyString (head (split_dot fname)) else fname.

(** [create_document] (POST /documents/): write the bytes, then record the
    metadata. *)
Definition create_document (fname : string) (content : list Byte.byte)
    (current_user : User) (db : DB) (store : blobs) : Document * DB * blobs :=
  let store' := <[fname := content]> store in
  let document_title := document_title fname in
  let '(db_document, db') :=
    crud_create_document db document_title (id current_user) fname in
  (db_document, db', store').


(** [read_document] (GET /documents/{document_id}), with the response
    validation. *)
Definition read_document (document_id : Z) (current_user : User) (db : DB)
  : result Document :=
  match get_document db document_id with
  | None => Raise (mkHTTPException 404 "Document not found")
  | Some d => if document_response_ok d then Ok d else Raise internal_error
  end.

(** [delete_document] (DELETE /documents/{document_id}): the response and
    the table after the request. [crud.delete_document] has committed the
    deletion before the response is validated, so a 500 from the response
    model still leaves the row deleted. *)
Definition delete_document (document_id : Z) (current_user : User) (db : DB)
  : result Document * DB :=
  match get_document db document_id with
  | None => (Raise (mkHTTPException 404 "Document not found"), db)
  | Some _ =>
      match crud_delete_document db document_id with
      | (Some deleted_document, db') =>
          (if document_response_ok deleted_document then Ok deleted_document
           else Raise internal_error, db')
      | (None, db') =>
          (* not reached: the row was just found; a [None] body would fail
             the response model *)
          (Raise internal_error, db')
      end
  end.

(** [download_document] (GET /documents/{document_id}/download): the
    response carries the stored bytes under the stored filename. *)
Definition download_document (document_id : Z) (current_user : User) (db : DB)
    (store : blobs) : result (string * list Byte.byte) :=
  match get_document db document_id with
  | None => Raise (mkHTTPException 404 "Document not found")
  | Some d =>
      match store !! filename d with
      | None => Raise (mkHTTPException 404 "File not found on server")
      | Some bytes => Ok (filename d, bytes)
      end
  end.



(** The state the users table is kept in by the handlers: every row sits
    under its own primary key, below the next autoincrement value, and no
    two rows share a username or an email (the unique columns). *)
Definition users_wf (db : DB) : Prop :=
  (forall i u, users db !! i = Some u -> id u = i /\ i < next_user_id db) /\
  (forall i j u v, users db !! i = Some u -> users db !! j = Some v ->
     username u = username v -> i = j) /\
  (forall i j u v, users db !! i = Some u -> users db !! j = Some v ->
     email u = email v -> i = j).

(** The same check, executable. *)
Definition users_wfb (db : DB) : bool :=
  let l := map_to_list (users db) in
  forallb (fun '(i, u) =>
    Z.eqb (id u) i && Z.ltb i (next_user_id db) &&
    forallb (fun '(j, v) =>
      (negb (String.eqb (username u) (username v)) &&
       negb (String.eqb (email u) (email v))) || Z.eqb i j) l) l.

End Crud.

End Store.

(* ------------------------------------------------------------------ *)
(** ** Credential service (the [auth.py] imported by main.py and crud.py) *)

Module Credentials.

(** Modelled from the spec: [get_password_hash] and [verify_password] of
    [auth.py], which is not among the sources (only its callers and its
    test are). A hash keeps its salt and a digest of salt and password;
    verification recomputes the digest with the stored salt. *)
Record PasswordHash := mkPasswordHash {
  salt : string;
  digest : string
}.

(** Modelled from the spec: a signed, time-bounded token carrying the
    subject (the username, claim "sub") and the absolute expiry ("exp",
    seconds), with a signature over both made with the server secret. *)
Record Token := mkToken {
  sub : string;
  exp : Z;
  signature : string
}.

Inductive TokenError := InvalidToken | ExpiredToken.

Section Credentials.

(** The keyed digest of the hashing scheme (salt, password). *)
Variable digest_fn : string -> string -> string.
(** The signing function (secret, subject, expiry). *)
Variable sign : string -> string -> Z -> string.

(** Modelled from the spec: [hash(password)] with a fresh salt. *)
Definition get_password_hash (fresh_salt password : string) : PasswordHash :=
  mkPasswordHash fresh_salt (digest_fn fresh_salt password).

(** Modelled from the spec: [verify(password, hash)]. *)
Definition verify_password (password : string) (h : PasswordHash) : bool :=
  String.eqb (digest_fn (salt h) password) (digest h).

(** Modelled from the spec: [issue_token(subject, ttl)], expiry [now + ttl]
    ([create_access_token(data={"sub": ...}, expires_delta=...)]). *)
Definition create_access_token (secret : string) (now : Z) (subject : string)
    (ttl : N) : Token :=
  let e := now + Z.of_N ttl in mkToken subject e (sign secret subject e).

(** Modelled from the spec: [verify_token(token)]; the signature is checked
    first, then the expiry against the current time. *)
Definition verify_token (secret : string) (now : Z) (tok : Token)
  : TokenError + string :=
  if negb (String.eqb (sign secret (sub tok) (exp tok)) (signature tok))
  then inl InvalidToken
  else if now >? exp tok then inl ExpiredToken
  else inr (sub tok).

End Credentials.

End Credentials.

(* ================================================================== *)
(** * Properties of the ingestion tracker *)

Module IngestionFacts.
Import Ingestion.

Example trigger_fresh :
  trigger 7 ∅ = Ok (mkIngestionTask 7 "pending" None,
                    {[7%Z := mkIngestionTask 7 "pending" None]}).
Proof. reflexivity. Qed.

Example trigger_twice :
  exists e, trigger 7 {[7%Z := mkIngestionTask 7 "pending" None]} = Raise e
            /\ status_code e = 400.
Proof. eexists. split; reflexivity. Qed.

Lemma running_status_spec (s : string) :
  running_status s = true <-> s = "pending" \/ s = "processing".
Proof.
  unfold running_status. rewrite orb_true_iff, !String.eqb_eq. tauto.
Qed.

(** The invariant of C9: every stored status is one that the code writes. *)
Definition written_status (s : string) : Prop :=
  s = "pending" \/ s = "processing" \/ s = "completed".

Definition tasks_ok (m : tasks) : Prop :=
  forall d t, m !! d = Some t -> written_status (task_status t).

Lemma tasks_ok_insert (m : tasks) d t :
  tasks_ok m -> written_status (task_status t) -> tasks_ok (<[d := t]> m).
Proof.
  intros Hm Ht d' t' Hl. destruct (decide (d = d')) as [->|Hne].
  - rewrite lookup_insert_eq in Hl. by injection Hl as <-.
  - rewrite lookup_insert_ne in Hl by done. eauto.
Qed.

Lemma set_field_ok f d (m m' : tasks) :
  (forall t, written_status (task_status (f t))) ->
  tasks_ok m -> set_field f d m = Some m' -> tasks_ok m'.
Proof.
  unfold set_field. intros Hf Hm. destruct (m !! d) eqn:E; [|discriminate].
  intros [= <-]. by apply tasks_ok_insert.
Qed.

Lemma set_field_message_ok msg d (m m' : tasks) :
  tasks_ok m -> set_field (with_message msg) d m = Some m' -> tasks_ok m'.
Proof.
  unfold set_field. intros Hm. destruct (m !! d) as [t|] eqn:E; [|discriminate].
  intros [= <-]. apply tasks_ok_insert; [done|]. simpl. by apply (Hm d).
Qed.

Lemma trigger_ok d (m m' : tasks) t :
  tasks_ok m -> trigger d m = Ok (t, m') -> tasks_ok m'.
Proof.
  unfold trigger. intros Hm.
  destruct (m !! d) as [t0|]; [destruct (running_status (task_status t0))|];
    try discriminate; intros [= <- <-]; apply tasks_ok_insert; try done;
    left; reflexivity.
Qed.

Lemma process_ok d (m : tasks) tr :
  tasks_ok m -> process_ingestion_task d m = Some tr ->
  forall m', m' ∈ tr -> tasks_ok m'.
Proof.
  unfold process_ingestion_task. intros Hm.
  destruct (m !! d); [|intros [= <-] m' Hin; by apply not_elem_of_nil in Hin].
  destruct (set_field (with_status "processing") d m) as [m1|] eqn:E1;
    [|discriminate]; simpl.
  destruct (set_field (with_status "completed") d m1) as [m2|] eqn:E2;
    [|discriminate]; simpl.
  destruct (set_field (with_message _) d m2) as [m3|] eqn:E3;
    [|discriminate]; simpl.
  assert (H1 : tasks_ok m1).
  { eapply set_field_ok; [|exact Hm|exact E1]. intros; right; left; done. }
  assert (H2 : tasks_ok m2).
  { eapply set_field_ok; [|exact H1|exact E2]. intros; right; right; done. }
  assert (H3 : tasks_ok m3) by (eapply set_field_message_ok; eauto).
  intros [= <-] m'. rewrite !elem_of_cons, elem_of_nil.
  intros [->|[->|[->|[]]]]; assumption.
Qed.

Lemma step_ok doc_exists (m m' : tasks) :
  tasks_ok m -> step doc_exists m m' -> tasks_ok m'.
Proof.
  intros Hm Hs. destruct Hs as [d m0 t m1 Ht|d m0 tr m1 Hp Hin|m0].
  - unfold trigger_ingestion in Ht. destruct (doc_exists d); [|discriminate].
    eapply trigger_ok; eauto.
  - eapply process_ok; eauto.
  - exact Hm.
Qed.

Lemma reachable_ok doc_exists (m : tasks) :
  reachable doc_exists m -> tasks_ok m.
Proof.
  induction 1 as [|m m' _ IH Hs].
  - intros d t Hl. by rewrite lookup_empty in Hl.
  - eapply step_ok; eauto.
Qed.

End IngestionFacts.

(* ================================================================== *)
(** * Claims on the ingestion tracker *)

Module IngestionClaims.
Import Ingestion IngestionFacts.

(** C1: when the mapping holds a [pending] or [processing] task for the id,
    [trigger] raises the 400 "already running" error (the mapping is left
    as it is, since no new mapping is produced); otherwise (no entry, or
    any other status such as [completed] or [failed]) it stores a fresh
    [pending] task under the id and returns that task. *)
Theorem trigger_already_running_or_pending (document_id : Z) (m : tasks) :
  (forall t, m !! document_id = Some t ->
     (task_status t = "pending" \/ task_status t = "processing") ->
     trigger document_id m =
       Raise (mkHTTPException 400 ("Ingestion for document ID "
                ++ pretty document_id ++ " is already " ++ task_status t ++ ".")))
  /\
  ((forall t, m !! document_id = Some t ->
      task_status t <> "pending" /\ task_status t <> "processing") ->
   trigger document_id m =
     Ok (mkIngestionTask document_id "pending" None,
         <[document_id := mkIngestionTask document_id "pending" None]> m)).
Proof.
  unfold trigger. split.
  - intros t Hl Hs. rewrite Hl.
    apply running_status_spec in Hs. by rewrite Hs.
  - intros H. destruct (m !! document_id) as [t|] eqn:Hl; [|reflexivity].
    destruct (H t eq_refl) as [H1 H2].
    destruct (running_status (task_status t)) eqn:Hr; [|reflexivity].
    apply running_status_spec in Hr. tauto.
Qed.

(** C2: when the id is in the mapping, the background body first stores
    the task with status [processing] (other fields kept), and ends with the
    task holding status [completed] and the message "Ingestion completed
    successfully."; when the id is absent, it changes nothing and raises
    nothing. *)
Theorem process_ingestion_task_transitions (document_id : Z) (m : tasks) :
  (forall t, m !! document_id = Some t ->
     exists m1 m2 m3,
       process_ingestion_task document_id m = Some [m1; m2; m3] /\
       m1 = <[document_id := mkIngestionTask (task_document_id t) "processing"
                               (task_message t)]> m /\
       m3 = <[document_id := mkIngestionTask (task_document_id t) "completed"
                  (Some "Ingestion completed successfully.")]> m /\
       run_final document_id m = Some m3)
  /\
  (m !! document_id = None ->
     process_ingestion_task document_id m = Some [] /\
     run_final document_id m = Some m).
Proof.
  unfold run_final, process_ingestion_task, set_field. split.
  - intros t Hl. rewrite Hl. simpl.
    rewrite lookup_insert_eq. simpl. rewrite lookup_insert_eq. simpl.
    rewrite !insert_insert_eq.
    do 3 eexists. split; [reflexivity|]. split; [reflexivity|].
    split; reflexivity.
  - intros Hl. rewrite Hl. split; reflexivity.
Qed.

(** C9: in every state reachable from the empty mapping by triggers,
    background runs (also interrupted ones) and status queries, every task
    has status [pending], [processing] or [completed]; in particular no
    task is ever [failed]. *)
Theorem failed_unreachable (doc_exists : Z -> bool) (m : tasks) :
  reachable doc_exists m ->
  forall d t, m !! d = Some t ->
    (task_status t = "pending" \/ task_status t = "processing" \/
     task_status t = "completed") /\ task_status t <> "failed".
Proof.
  intros Hr d t Hl. pose proof (reachable_ok doc_exists m Hr d t Hl) as Hs.
  split; [exact Hs|].
  destruct Hs as [H | [H | H]]; rewrite H; discriminate.
Qed.

Lemma failed_unreachable_witness :
  let m := {[3%Z := mkIngestionTask 3 "processing" None]} : tasks in
  reachable (fun _ => true) m /\
  ((task_status (mkIngestionTask 3 "processing" None) = "pending" \/
    task_status (mkIngestionTask 3 "processing" None) = "processing" \/
    task_status (mkIngestionTask 3 "processing" None) = "completed") /\
   task_status (mkIngestionTask 3 "processing" None) <> "failed").
Proof.
  intros m.
  assert (Hr : reachable (fun _ => true) m).
  { apply (reach_step _ {[3%Z := mkIngestionTask 3 "pending" None]}).
    - apply (reach_step _ ∅); [apply reach_init|].
      apply (step_trigger _ 3 ∅ (mkIngestionTask 3 "pending" None)).
      reflexivity.
    - eapply (step_run _ 3 _ _).
      + reflexivity.
      + simpl. left. }
  split; [exact Hr|].
  apply (failed_unreachable (fun _ => true) m Hr 3). reflexivity.
Defined.

End IngestionClaims.

(* ================================================================== *)
(** * Properties of the user and document handlers *)

Module StoreFacts.
Import Store.

Definition empty_db : DB := mkDB ∅ 1 ∅ 1.

Definition admin_user : User := mkUser 1 "root" "root@example.com" "h" true "admin".
Definition viewer_user : User := mkUser 2 "alice" "alice@example.com" "h" true "viewer".

Example title_multi : document_title "a.b.c" = "a".
Proof. reflexivity. Qed.
Example title_hidden : document_title ".env" = "".
Proof. reflexivity. Qed.
Example title_plain : document_title "README" = "README".
Proof. reflexivity. Qed.

Example register_twice :
  match create_user_handler (fun p => p) (user_create_default "a" "a@x.io" "pw")
          empty_db with
  | Ok (_, db1) =>
      create_user_handler (fun p => p) (user_create_default "a" "b@x.io" "pw") db1
      = Raise (mkHTTPException 400 "Username already registered")
  | Raise _ => False
  end.
Proof. reflexivity. Qed.

Lemma first_user_None (p : User -> bool) (db : DB) :
  first_user p db = None <-> forall i u, users db !! i = Some u -> p u = false.
Proof.
  unfold first_user.
  destruct (List.filter p (map snd (map_to_list (users db)))) as [|a l] eqn:E;
    simpl; split; try done.
  - intros _ i u Hl. destruct (p u) eqn:Hp; [|reflexivity]. exfalso.
    assert (Hin : In u (List.filter p (map snd (map_to_list (users db))))).
    { apply filter_In. split; [|exact Hp].
      apply in_map_iff. exists (i, u). split; [reflexivity|].
      apply list_elem_of_In. by apply elem_of_map_to_list. }
    rewrite E in Hin. inversion Hin.
  - intros H.
    assert (Hin : In a (List.filter p (map snd (map_to_list (users db)))))
      by (rewrite E; left; reflexivity).
    apply filter_In in Hin as [Hin Hp].
    apply in_map_iff in Hin as [[i u] [Hs Hin]]. simpl in Hs. subst u.
    apply list_elem_of_In, elem_of_map_to_list in Hin.
    by rewrite (H i a Hin) in Hp.
Qed.

Lemma first_user_Some (p : User -> bool) (db : DB) :
  (exists i u, users db !! i = Some u /\ p u = true) ->
  exists u, first_user p db = Some u.
Proof.
  intros (i & u & Hl & Hp). destruct (first_user p db) as [v|] eqn:E; [eauto|].
  apply first_user_None with (i := i) (u := u) in E; [|exact Hl].
  congruence.
Qed.

Lemma split_dot_app (s1 s2 : string) :
  has_dot s1 = false -> split_dot (s1 ++ String "." s2) = s1 :: split_dot s2.
Proof.
  induction s1 as [|c r IH]; simpl; [reflexivity|].
  intros H. apply orb_false_iff in H as [Hc Hr]. rewrite Hc, IH by exact Hr.
  reflexivity.
Qed.

Lemma has_dot_app (s1 s2 : string) : has_dot (s1 ++ String "." s2) = true.
Proof. induction s1 as [|c r IH]; simpl; [reflexivity|]. by rewrite IH, orb_true_r. Qed.

End StoreFacts.

(* ================================================================== *)
(** * Claims on the user and document handlers *)

Module StoreClaims.
Import Store StoreFacts.

(** C3: a caller whose role is not "admin" gets 403 from role update and
    user deletion whatever the target id; an admin gets 404 when no user
    has the target id; an admin on an existing user gets the user with the
    new role (update) or the removed user (delete; the user row is gone and
    the user's documents lose their owner, as the ORM flush does). *)
Theorem user_admin_routes (current_user : User) (user_id : Z)
    (new_role : string) (db : DB) :
  (role current_user <> "admin" ->
     update_user_role user_id new_role current_user db =
       Raise (mkHTTPException 403 "Not authorized to update user roles") /\
     delete_user user_id current_user db =
       Raise (mkHTTPException 403 "Not authorized to delete users"))
  /\
  (role current_user = "admin" -> users db !! user_id = None ->
     update_user_role user_id new_role current_user db =
       Raise (mkHTTPException 404 "User not found") /\
     delete_user user_id current_user db =
       Raise (mkHTTPException 404 "User not found"))
  /\
  (forall u, role current_user = "admin" -> users db !! user_id = Some u ->
     update_user_role user_id new_role current_user db =
       Ok (set_role new_role u,
           mkDB (<[user_id := set_role new_role u]> (users db))
                (next_user_id db) (documents db) (next_document_id db)) /\
     role (set_role new_role u) = new_role /\
     delete_user user_id current_user db =
       Ok (u, mkDB (delete user_id (users db)) (next_user_id db)
                   (orphan_owner user_id <$> documents db)
                   (next_document_id db))).
Proof.
  unfold update_user_role, delete_user, crud_update_user_role,
    crud_delete_user, get_user.
  split; [|split].
  - intros H. apply String.eqb_neq in H. rewrite H. split; reflexivity.
  - intros H Hl. rewrite H, Hl. split; reflexivity.
  - intros u H Hl. rewrite H, Hl. split; [reflexivity|]. split; reflexivity.
Qed.

(** C4: registration checks the username first (400 "Username already
    registered"), then the email (400 "Email already registered"); on
    either failure no user is stored (no new table is produced);
    otherwise the new user is stored under the next id and returned. *)
Theorem register_checks (get_password_hash : string -> string)
    (user : UserCreate) (db : DB) :
  ((exists i u, users db !! i = Some u /\ username u = uc_username user) ->
     create_user_handler get_password_hash user db =
       Raise (mkHTTPException 400 "Username already registered"))
  /\
  ((forall i u, users db !! i = Some u -> username u <> uc_username user) ->
   (exists i u, users db !! i = Some u /\ email u = uc_email user) ->
     create_user_handler get_password_hash user db =
       Raise (mkHTTPException 400 "Email already registered"))
  /\
  ((forall i u, users db !! i = Some u ->
      username u <> uc_username user /\ email u <> uc_email user) ->
   exists u db',
     create_user_handler get_password_hash user db = Ok (u, db') /\
     create_user get_password_hash db user = (u, db') /\
     username u = uc_username user /\ email u = uc_email user /\
     users db' = <[next_user_id db := u]> (users db)).
Proof.
  unfold create_user_handler, get_user_by_username, get_user_by_email.
  split; [|split].
  - intros (i & u & Hl & Hn).
    destruct (first_user_Some (fun u => String.eqb (username u) (uc_username user))
                db) as [v ->]; [|reflexivity].
    exists i, u. split; [exact Hl|]. by apply String.eqb_eq.
  - intros Hn (i & u & Hl & He).
    assert (first_user (fun u => String.eqb (username u) (uc_username user)) db
            = None) as ->.
    { apply first_user_None. intros j w Hw. apply String.eqb_neq. eauto. }
    destruct (first_user_Some (fun u => String.eqb (email u) (uc_email user))
                db) as [v ->]; [|reflexivity].
    exists i, u. split; [exact Hl|]. by apply String.eqb_eq.
  - intros Hn.
    assert (first_user (fun u => String.eqb (username u) (uc_username user)) db
            = None) as ->.
    { apply first_user_None. intros j w Hw. apply String.eqb_neq.
      apply (Hn j w Hw). }
    assert (first_user (fun u => String.eqb (email u) (uc_email user)) db
            = None) as ->.
    { apply first_user_None. intros j w Hw. apply String.eqb_neq.
      apply (Hn j w Hw). }
    do 2 eexists. split; [reflexivity|]. split; [reflexivity|].
    simpl. split; [reflexivity|]. split; reflexivity.
Qed.

(** C7: the users table stores roles outside admin, editor and viewer (the
    domain the [User.role] column's comment gives): a registration with role
    "superuser" stores "superuser", and an admin's role update to "owner"
    stores "owner"; nothing checks the string. *)
Theorem role_outside_enum_stored :
  exists u db1 u' db2,
    create_user_handler (fun p => p)
      (mkUserCreate "mallory" "mallory@example.com" "pw" (Some "superuser"))
      empty_db = Ok (u, db1) /\
    users db1 !! 1 = Some u /\ role u = "superuser" /\
    update_user_role 1 "owner" admin_user db1 = Ok (u', db2) /\
    users db2 !! 1 = Some u' /\ role u' = "owner" /\
    (forall r, r = "superuser" \/ r = "owner" ->
       r <> "admin" /\ r <> "editor" /\ r <> "viewer").
Proof.
  do 4 eexists. split; [reflexivity|]. split; [reflexivity|].
  split; [reflexivity|]. split; [reflexivity|]. split; [reflexivity|].
  split; [reflexivity|].
  intros r [-> | ->]; repeat split; discriminate.
Qed.

(** C8: the uploaded document is recorded with the title given by the
    filename: the part before the first "." when the name has a ".", and
    the whole name otherwise (so "a.b.c" gives "a" and ".env" gives ""). *)
Theorem upload_title_is_stem (upload_time_default : Z) (content : list Byte.byte)
    (current_user : User) (db : DB) (store : blobs) :
  (forall s1 s2, has_dot s1 = false ->
     title (fst (fst (create_document upload_time_default (s1 ++ String "." s2)
                        content current_user db store))) = s1)
  /\
  (forall fname, has_dot fname = false ->
     title (fst (fst (create_document upload_time_default fname
                        content current_user db store))) = fname)
  /\
  document_title "a.b.c" = "a" /\ document_title ".env" = "".
Proof.
  unfold create_document, crud_create_document. simpl. split; [|split].
  - intros s1 s2 H. unfold document_title.
    rewrite has_dot_app, split_dot_app by exact H. reflexivity.
  - intros fname H. unfold document_title. by rewrite H.
  - split; reflexivity.
Qed.



End StoreClaims.

(* ================================================================== *)
(** * Claims on the credential service *)

Module CredentialClaims.
Import Credentials.

(** C5: a token issued at [now] with any (non-negative) lifetime verifies
    at [now] to its subject; a correctly signed token verified after its
    expiry fails with [ExpiredToken]; a token whose signature does not
    match the server secret's signature of its payload fails with
    [InvalidToken], in particular an issued token whose subject was
    replaced by one whose signature differs. *)
Theorem token_roundtrip_expiry_tamper (sign : string -> string -> Z -> string)
    (secret : string) (now : Z) (subject : string) (ttl : N) :
  verify_token sign secret now (create_access_token sign secret now subject ttl)
    = inr subject
  /\
  (forall later, later > now + Z.of_N ttl ->
     verify_token sign secret later
       (create_access_token sign secret now subject ttl) = inl ExpiredToken)
  /\
  (forall t (tok : Token),
     sign secret (sub tok) (exp tok) <> signature tok ->
     verify_token sign secret t tok = inl InvalidToken)
  /\
  (forall t forged,
     sign secret forged (now + Z.of_N ttl) <>
       sign secret subject (now + Z.of_N ttl) ->
     let tok := create_access_token sign secret now subject ttl in
     verify_token sign secret t (mkToken forged (exp tok) (signature tok))
       = inl InvalidToken)
  /\
  (forall t (tok : Token),
     sign secret (sub tok) (exp tok) = signature tok -> t > exp tok ->
     verify_token sign secret t tok = inl ExpiredToken).
Proof.
  unfold verify_token, create_access_token; simpl.
  split; [|split; [|split; [|split]]].
  - rewrite String.eqb_refl. simpl.
    destruct (now >? now + Z.of_N ttl) eqn:E; [|reflexivity].
    apply Z.gtb_lt in E. lia.
  - intros later Hl. rewrite String.eqb_refl. simpl.
    destruct (later >? now + Z.of_N ttl) eqn:E; [reflexivity|].
    rewrite Z.gtb_ltb in E. apply Z.ltb_ge in E. lia.
  - intros t tok H. apply String.eqb_neq in H. by rewrite H.
  - intros t forged H. simpl. apply String.eqb_neq in H. by rewrite H.
  - intros t tok H Ht. apply String.eqb_eq in H. rewrite H. simpl.
    destruct (t >? exp tok) eqn:E; [reflexivity|].
    rewrite Z.gtb_ltb in E. apply Z.ltb_ge in E. lia.
Qed.

Lemma append_x_neq (p : string) : p ++ "x" <> p.
Proof.
  induction p as [|c r IH]; simpl; [discriminate|].
  intros H. injection H. exact IH.
Qed.

(** C6: with a digest that separates passwords under a given salt, the
    password that was hashed verifies against its hash, and the same
    password with "x" appended does not. *)
Theorem verify_password_roundtrip (digest_fn : string -> string -> string)
    (digest_inj : forall s p q, digest_fn s p = digest_fn s q -> p = q)
    (fresh_salt password : string) :
  verify_password digest_fn password
    (get_password_hash digest_fn fresh_salt password) = true /\
  verify_password digest_fn (password ++ "x")
    (get_password_hash digest_fn fresh_salt password) = false.
Proof.
  unfold verify_password, get_password_hash; simpl. split.
  - apply String.eqb_refl.
  - apply String.eqb_neq. intros H. apply digest_inj in H.
    revert H. apply append_x_neq.
Qed.

Lemma salted_digest_inj (s p q : string) : s ++ p = s ++ q -> p = q.
Proof.
  induction s as [|c r IH]; simpl; [done|]. intros H. injection H. exact IH.
Qed.

Lemma verify_password_roundtrip_witness :
  verify_password (fun s p => s ++ p) "securepassword"
    (get_password_hash (fun s p => s ++ p) "$2b$12$salt" "securepassword")
    = true /\
  verify_password (fun s p => s ++ p) ("securepassword" ++ "x")
    (get_password_hash (fun s p => s ++ p) "$2b$12$salt" "securepassword")
    = false.
Proof.
  apply (verify_password_roundtrip (fun s p => s ++ p)).
  intros s p q. apply salted_digest_inj.
Defined.

End CredentialClaims.

(* ================================================================== *)
(** * Further properties of the users table *)

Module UserTableFacts.
Import Store StoreFacts.

Lemma in_users (db : DB) i u :
  users db !! i = Some u -> In (i, u) (map_to_list (users db)).
Proof. intros H. apply list_elem_of_In. by apply elem_of_map_to_list. Qed.

Lemma users_wfb_sound (db : DB) : users_wfb db = true -> users_wf db.
Proof.
  unfold users_wfb. rewrite forallb_forall. intros H.
  split; [|split].
  - intros i u Hl. specialize (H _ (in_users _ _ _ Hl)). simpl in H.
    apply andb_true_iff in H as [H _]. apply andb_true_iff in H as [H1 H2].
    split; [by apply Z.eqb_eq|by apply Z.ltb_lt].
  - intros i j u v Hi Hj Hn. specialize (H _ (in_users _ _ _ Hi)). simpl in H.
    apply andb_true_iff in H as [_ H]. rewrite forallb_forall in H.
    specialize (H _ (in_users _ _ _ Hj)). simpl in H.
    apply orb_true_iff in H as [H|H].
    + apply andb_true_iff in H as [H _]. rewrite Hn, String.eqb_refl in H.
      discriminate.
    + by apply Z.eqb_eq.
  - intros i j u v Hi Hj Hn. specialize (H _ (in_users _ _ _ Hi)). simpl in H.
    apply andb_true_iff in H as [_ H]. rewrite forallb_forall in H.
    specialize (H _ (in_users _ _ _ Hj)). simpl in H.
    apply orb_true_iff in H as [H|H].
    + apply andb_true_iff in H as [_ H]. rewrite Hn, String.eqb_refl in H.
      discriminate.
    + by apply Z.eqb_eq.
Qed.

Ltac insert_cases H k i :=
  simpl in H; destruct (decide (k = i)) as [<-|?];
  [rewrite lookup_insert_eq in H; injection H as <-
  |rewrite lookup_insert_ne in H by done].

(** Registration passes the two checks exactly when no stored user has the
    username, nor the email. *)
Lemma create_user_handler_Ok h (user : UserCreate) (db : DB) u db' :
  create_user_handler h user db = Ok (u, db') ->
  create_user h db user = (u, db') /\
  forall i v, users db !! i = Some v ->
    username v <> uc_username user /\ email v <> uc_email user.
Proof.
  unfold create_user_handler, get_user_by_username, get_user_by_email.
  destruct (first_user _ db) eqn:E1; [discriminate|].
  destruct (first_user (fun u => String.eqb (email u) (uc_email user)) db)
    eqn:E2; [discriminate|].
  intros Hok. split; [congruence|].
  rewrite first_user_None in E1, E2.
  intros i v Hv. split; apply String.eqb_neq; eauto.
Qed.

Lemma users_wf_create h (user : UserCreate) (db : DB) :
  users_wf db ->
  (forall i v, users db !! i = Some v ->
     username v <> uc_username user /\ email v <> uc_email user) ->
  users_wf (snd (create_user h db user)).
Proof.
  intros (Hid & Hun & Hem) Hfresh. unfold create_user, users_wf; simpl.
  split; [|split].
  - intros i u Hl. insert_cases Hl (next_user_id db) i; [simpl; lia|].
    destruct (Hid _ _ Hl). lia.
  - intros i j u v Hi Hj Hn.
    insert_cases Hi (next_user_id db) i; insert_cases Hj (next_user_id db) j;
      simpl in *; try done.
    + destruct (Hfresh _ _ Hj). congruence.
    + destruct (Hfresh _ _ Hi). congruence.
    + eauto.
  - intros i j u v Hi Hj Hn.
    insert_cases Hi (next_user_id db) i; insert_cases Hj (next_user_id db) j;
      simpl in *; try done.
    + destruct (Hfresh _ _ Hj). congruence.
    + destruct (Hfresh _ _ Hi). congruence.
    + eauto.
Qed.

Lemma users_wf_set_role (db : DB) k r u :
  users_wf db -> users db !! k = Some u ->
  users_wf (mkDB (<[k := set_role r u]> (users db)) (next_user_id db)
                 (documents db) (next_document_id db)).
Proof.
  intros (Hid & Hun & Hem) Hk. unfold users_wf; simpl. split; [|split].
  - intros i v Hl. insert_cases Hl k i; [simpl; apply Hid, Hk|]. eauto.
  - intros i j v w Hi Hj Hn.
    insert_cases Hi k i; insert_cases Hj k j; simpl in *; try done; eauto.
  - intros i j v w Hi Hj Hn.
    insert_cases Hi k i; insert_cases Hj k j; simpl in *; try done; eauto.
Qed.

Lemma users_wf_delete (db : DB) k :
  users_wf db ->
  users_wf (mkDB (delete k (users db)) (next_user_id db)
                 (documents db) (next_document_id db)).
Proof.
  intros (Hid & Hun & Hem). unfold users_wf; simpl. split; [|split].
  - intros i v Hl. apply lookup_delete_Some in Hl as [_ Hl]. eauto.
  - intros i j v w Hi Hj Hn. apply lookup_delete_Some in Hi as [_ Hi].
    apply lookup_delete_Some in Hj as [_ Hj]. eauto.
  - intros i j v w Hi Hj Hn. apply lookup_delete_Some in Hi as [_ Hi].
    apply lookup_delete_Some in Hj as [_ Hj]. eauto.
Qed.

(** A [first_user] query whose predicate holds for exactly one stored row
    returns that row. *)
Lemma first_user_unique (p : User -> bool) (db : DB) k u :
  users db !! k = Some u -> p u = true ->
  (forall i v, users db !! i = Some v -> p v = true -> i = k) ->
  first_user p db = Some u.
Proof.
  intros Hk Hp Huniq. unfold first_user.
  destruct (List.filter p (map snd (map_to_list (users db)))) as [|a l] eqn:E.
  - exfalso. assert (Hin : In u (List.filter p (map snd (map_to_list (users db))))).
    { apply filter_In. split; [|exact Hp]. apply in_map_iff.
      exists (k, u). split; [reflexivity|]. by apply in_users. }
    rewrite E in Hin. inversion Hin.
  - simpl. assert (Hin : In a (List.filter p (map snd (map_to_list (users db)))))
      by (rewrite E; left; reflexivity).
    apply filter_In in Hin as [Hin Ha].
    apply in_map_iff in Hin as [[i v] [Hs Hin]]. simpl in Hs. subst v.
    apply list_elem_of_In, elem_of_map_to_list in Hin.
    pose proof (Huniq _ _ Hin Ha) as ->. congruence.
Qed.

End UserTableFacts.

Module UserTableExtras.
Import Store StoreFacts UserTableFacts.

(** Registration keeps the users table well formed (keys are the row ids,
    below the next id; usernames and emails unique), keeps every existing
    user, and stores the new user under the next id. *)
Theorem register_preserves_users_wf (h : string -> string) (user : UserCreate)
    (db : DB) (u : User) (db' : DB) :
  users_wf db ->
  create_user_handler h user db = Ok (u, db') ->
  users_wf db' /\
  (forall i v, users db !! i = Some v -> users db' !! i = Some v) /\
  users db' !! next_user_id db = Some u /\ id u = next_user_id db.
Proof.
  intros Hwf Hok. destruct (create_user_handler_Ok _ _ _ _ _ Hok) as [Hc Hfresh].
  pose proof (users_wf_create h user db Hwf Hfresh) as Hwf'.
  rewrite Hc in Hwf'. simpl in Hwf'.
  unfold create_user in Hc. injection Hc as <- <-. simpl.
  split; [exact Hwf'|]. split; [|split; [apply lookup_insert_eq|reflexivity]].
  intros i v Hv. rewrite lookup_insert_ne; [exact Hv|].
  destruct Hwf as [Hid _]. destruct (Hid _ _ Hv). lia.
Qed.

Lemma register_preserves_users_wf_witness :
  let db := mkDB {[1 := mkUser 1 "alice" "a@x.io" "pw" true "viewer"]} 2 ∅ 1 in
  users_wf db /\
  exists u db',
    create_user_handler (fun p => p) (user_create_default "bob" "b@x.io" "pw2")
      db = Ok (u, db') /\
    users_wf db' /\
    users db' !! 1 = Some (mkUser 1 "alice" "a@x.io" "pw" true "viewer") /\
    users db' !! 2 = Some u.
Proof.
  intros db.
  assert (H0 : users_wf db) by (apply users_wfb_sound; vm_compute; reflexivity).
  split; [exact H0|]. do 2 eexists.
  assert (Hok : create_user_handler (fun p => p)
                  (user_create_default "bob" "b@x.io" "pw2") db = Ok (_, _))
    by reflexivity.
  split; [exact Hok|].
  destruct (register_preserves_users_wf _ _ _ _ _ H0 Hok) as (Hwf & Hkeep & Hnew & _).
  split; [exact Hwf|]. split; [apply Hkeep; reflexivity|exact Hnew].
Defined.

(** After a successful registration the new user is found by its id, its
    username and its email, and registering the same username again is
    refused with "Username already registered". *)
Theorem register_then_lookup (h : string -> string) (user user2 : UserCreate)
    (db : DB) (u : User) (db' : DB) :
  users_wf db ->
  create_user_handler h user db = Ok (u, db') ->
  get_user db' (id u) = Some u /\
  get_user_by_username db' (uc_username user) = Some u /\
  get_user_by_email db' (uc_email user) = Some u /\
  (uc_username user2 = uc_username user ->
   create_user_handler h user2 db' =
     Raise (mkHTTPException 400 "Username already registered")).
Proof.
  intros Hwf Hok.
  destruct (create_user_handler_Ok _ _ _ _ _ Hok) as [Hc Hfresh].
  pose proof (users_wf_create h user db Hwf Hfresh) as Hwf'.
  rewrite Hc in Hwf'. simpl in Hwf'.
  unfold create_user in Hc. injection Hc as Hu Hdb.
  assert (Hk : users db' !! next_user_id db = Some u)
    by (rewrite <- Hdb, <- Hu; apply lookup_insert_eq).
  destruct Hwf' as (_ & Hun & Hem).
  assert (Hid : id u = next_user_id db) by (rewrite <- Hu; reflexivity).
  split; [unfold get_user; by rewrite Hid|].
  assert (Hname : username u = uc_username user) by (rewrite <- Hu; reflexivity).
  assert (Hmail : email u = uc_email user) by (rewrite <- Hu; reflexivity).
  assert (Hby : get_user_by_username db' (uc_username user) = Some u).
  { apply (first_user_unique _ _ (next_user_id db)); [exact Hk| |].
    - by apply String.eqb_eq.
    - intros i v Hv Hp. apply String.eqb_eq in Hp.
      apply (Hun _ _ _ _ Hv Hk). congruence. }
  split; [exact Hby|]. split.
  - apply (first_user_unique _ _ (next_user_id db)); [exact Hk| |].
    + by apply String.eqb_eq.
    + intros i v Hv Hp. apply String.eqb_eq in Hp.
      apply (Hem _ _ _ _ Hv Hk). congruence.
  - intros H2. unfold create_user_handler. rewrite H2, Hby. reflexivity.
Qed.

Lemma register_then_lookup_witness :
  users_wf empty_db /\
  create_user_handler (fun p => p) (user_create_default "alice" "a@x.io" "pw")
    empty_db =
    Ok (mkUser 1 "alice" "a@x.io" "pw" true "viewer",
        mkDB {[1 := mkUser 1 "alice" "a@x.io" "pw" true "viewer"]} 2 ∅ 1) /\
  create_user_handler (fun p => p) (user_create_default "alice" "b@x.io" "pw2")
    (mkDB {[1 := mkUser 1 "alice" "a@x.io" "pw" true "viewer"]} 2 ∅ 1) =
    Raise (mkHTTPException 400 "Username already registered").
Proof.
  assert (H0 : users_wf empty_db) by (apply users_wfb_sound; vm_compute; reflexivity).
  assert (Hok : create_user_handler (fun p => p)
                  (user_create_default "alice" "a@x.io" "pw") empty_db =
    Ok (mkUser 1 "alice" "a@x.io" "pw" true "viewer",
        mkDB {[1 := mkUser 1 "alice" "a@x.io" "pw" true "viewer"]} 2 ∅ 1))
    by reflexivity.
  split; [exact H0|]. split; [exact Hok|].
  destruct (register_then_lookup (fun p => p) _
              (user_create_default "alice" "b@x.io" "pw2") _ _ _ H0 Hok)
    as (_ & _ & _ & H).
  apply H. reflexivity.
Defined.

End UserTableExtras.

Module PageFacts.
Import Store.






End PageFacts.

Module UserAdminExtras.
Import Store StoreFacts UserTableFacts PageFacts.

(** An admin's role update keeps the users table well formed, changes only
    the role of the target row (id, username, email, password hash and
    active flag are kept), leaves every other user and the documents
    table as they were. *)
Theorem update_role_effect (user_id : Z) (new_role : string)
    (current_user : User) (db : DB) (u : User) (db' : DB) :
  users_wf db ->
  update_user_role user_id new_role current_user db = Ok (u, db') ->
  users_wf db' /\
  (exists old, users db !! user_id = Some old /\ u = set_role new_role old /\
     id u = id old /\ username u = username old /\ email u = email old /\
     hashed_password u = hashed_password old /\ is_active u = is_active old) /\
  users db' !! user_id = Some u /\
  (forall j, j <> user_id -> users db' !! j = users db !! j) /\
  documents db' = documents db.
Proof.
  intros Hwf. unfold update_user_role, crud_update_user_role, get_user.
  destruct (negb (String.eqb (role current_user) "admin")); [discriminate|].
  destruct (users db !! user_id) as [old|] eqn:Hk; [|discriminate].
  intros [= <- <-]. simpl.
  split; [by apply users_wf_set_role|].
  split; [exists old; repeat split; reflexivity|].
  split; [apply lookup_insert_eq|]. split; [|reflexivity].
  intros j Hj. by rewrite lookup_insert_ne.
Qed.

Lemma update_role_effect_witness :
  let db := mkDB {[1 := mkUser 1 "alice" "a@x.io" "pw" true "viewer"]} 2 ∅ 1 in
  users_wf db /\
  update_user_role 1 "editor" admin_user db =
    Ok (mkUser 1 "alice" "a@x.io" "pw" true "editor",
        mkDB {[1 := mkUser 1 "alice" "a@x.io" "pw" true "editor"]} 2 ∅ 1) /\
  users_wf (mkDB {[1 := mkUser 1 "alice" "a@x.io" "pw" true "editor"]} 2 ∅ 1).
Proof.
  intros db.
  assert (H0 : users_wf db) by (apply users_wfb_sound; vm_compute; reflexivity).
  assert (Hok : update_user_role 1 "editor" admin_user db =
    Ok (mkUser 1 "alice" "a@x.io" "pw" true "editor",
        mkDB {[1 := mkUser 1 "alice" "a@x.io" "pw" true "editor"]} 2 ∅ 1)).
  { unfold update_user_role, crud_update_user_role, get_user, db; simpl.
    rewrite lookup_singleton_eq. simpl. by rewrite insert_singleton. }
  split; [exact H0|]. split; [exact Hok|].
  exact (proj1 (update_role_effect _ _ _ _ _ _ H0 Hok)).
Defined.

(** An admin's user deletion keeps the users table well formed and
    removes exactly the target row (it can no longer be fetched). It
    deletes no document, but every document the user owned loses its owner
    ([owner_id] NULL) and from then on reading it answers 500; the other
    documents are unchanged. *)
Theorem delete_user_orphans_documents (user_id : Z) (current_user : User)
    (db : DB) (u : User) (db' : DB) :
  users_wf db ->
  delete_user user_id current_user db = Ok (u, db') ->
  users_wf db' /\
  users db !! user_id = Some u /\
  get_user db' user_id = None /\
  (forall j, j <> user_id -> users db' !! j = users db !! j) /\
  (forall k, is_Some (documents db' !! k) <-> is_Some (documents db !! k)) /\
  (forall k d, documents db !! k = Some d -> owner_id d = Some user_id ->
     documents db' !! k =
       Some (mkDocument (doc_id d) (title d) (filename d) (upload_time d) None) /\
     forall reader, read_document k reader db' = Raise internal_error) /\
  (forall k d, documents db !! k = Some d -> owner_id d <> Some user_id ->
     documents db' !! k = Some d /\
     forall reader, read_document k reader db' = read_document k reader db).
Proof.
  intros Hwf. unfold delete_user, crud_delete_user, get_user.
  destruct (negb (String.eqb (role current_user) "admin")); [discriminate|].
  destruct (users db !! user_id) as [old|] eqn:Hk; [|discriminate].
  intros [= <- <-]. simpl.
  split; [by apply users_wf_delete|].
  split; [reflexivity|]. split; [apply lookup_delete_eq|].
  split; [intros j Hj; by rewrite lookup_delete_ne|].
  split; [intros k; rewrite lookup_fmap; by destruct (documents db !! k)|].
  split.
  - intros k d Hd Ho.
    assert (Hl : (orphan_owner user_id <$> documents db) !! k =
      Some (mkDocument (doc_id d) (title d) (filename d) (upload_time d) None)).
    { rewrite lookup_fmap, Hd. simpl. unfold orphan_owner. rewrite Ho, Z.eqb_refl.
      reflexivity. }
    split; [exact Hl|].
    intros reader. unfold read_document, get_document. simpl. by rewrite Hl.
  - intros k d Hd Ho.
    assert (Hl : (orphan_owner user_id <$> documents db) !! k = Some d).
    { rewrite lookup_fmap, Hd. simpl. unfold orphan_owner.
      destruct (owner_id d) as [o|]; [|reflexivity].
      destruct (Z.eqb_spec o user_id) as [->|]; [congruence|reflexivity]. }
    split; [exact Hl|].
    intros reader. unfold read_document, get_document. simpl. by rewrite Hl, Hd.
Qed.

Lemma delete_user_orphans_documents_witness :
  let db := mkDB {[1 := mkUser 1 "alice" "a@x.io" "pw" true "viewer"]} 2
              {[1 := mkDocument 1 "notes" "notes.txt" 0 (Some 1)]} 2 in
  users_wf db /\
  exists u db',
    delete_user 1 admin_user db = Ok (u, db') /\
    read_document 1 viewer_user db = Ok (mkDocument 1 "notes" "notes.txt" 0 (Some 1)) /\
    read_document 1 viewer_user db' = Raise internal_error.
Proof.
  intros db.
  assert (H0 : users_wf db) by (apply users_wfb_sound; vm_compute; reflexivity).
  split; [exact H0|]. do 2 eexists.
  assert (Hok : delete_user 1 admin_user db = Ok (_, _)) by reflexivity.
  split; [exact Hok|]. split; [reflexivity|].
  destruct (delete_user_orphans_documents _ _ _ _ _ H0 Hok)
    as (_ & _ & _ & _ & _ & H & _).
  apply (H 1 (mkDocument 1 "notes" "notes.txt" 0 (Some 1))); reflexivity.
Defined.


End UserAdminExtras.

Module DocumentExtras.
Import Store StoreFacts PageFacts.

(** An upload stores a document under the next document id, owned by the
    uploader, with the uploaded filename and its derived title; the
    document is then readable, its download returns the uploaded bytes, and
    every other document id and the users table are unchanged. *)
Theorem upload_then_download (upload_time_default : Z) (fname : string)
    (content : list Byte.byte) (current_user reader : User) (db : DB)
    (store : blobs) :
  let '(d, db', store') :=
    create_document upload_time_default fname content current_user db store in
  doc_id d = next_document_id db /\ owner_id d = Some (id current_user) /\
  filename d = fname /\ title d = document_title fname /\
  read_document (doc_id d) reader db' = Ok d /\
  download_document (doc_id d) reader db' store' = Ok (fname, content) /\
  (forall k, k <> next_document_id db ->
     documents db' !! k = documents db !! k) /\
  users db' = users db /\ next_document_id db' = next_document_id db + 1.
Proof.
  unfold create_document, crud_create_document, read_document,
    download_document, get_document; simpl.
  rewrite lookup_insert_eq. simpl. rewrite lookup_insert_eq.
  repeat split; try reflexivity.
  intros k Hk. by rewrite lookup_insert_ne.
Qed.

(** Uploads are stored by filename only: after uploading [c1] and then
    [c2] under the same filename, downloading the first document returns
    [c2]. *)
Theorem same_filename_overwrites (upload_time_default : Z) (fname : string)
    (c1 c2 : list Byte.byte) (u1 u2 reader : User) (db : DB) (store : blobs) :
  let '(d1, db1, store1) :=
    create_document upload_time_default fname c1 u1 db store in
  let '(d2, db2, store2) :=
    create_document upload_time_default fname c2 u2 db1 store1 in
  doc_id d1 <> doc_id d2 /\
  download_document (doc_id d1) reader db2 store2 = Ok (fname, c2) /\
  download_document (doc_id d2) reader db2 store2 = Ok (fname, c2).
Proof.
  unfold create_document, crud_create_document, download_document,
    get_document; simpl.
  split; [lia|].
  rewrite lookup_insert_ne by lia. rewrite !lookup_insert_eq. simpl.
  split; by simplify_map_eq.
Qed.

(** After a document is deleted, reading or downloading it gives 404
    "Document not found"; the other documents and the users table are
    unchanged. Deletion never touches the stored file. *)
Theorem delete_document_then_404 (document_id : Z) (current_user reader : User)
    (db : DB) (d : Document) (db' : DB) (store : blobs) :
  delete_document document_id current_user db = (Ok d, db') ->
  documents db !! document_id = Some d /\
  read_document document_id reader db' =
    Raise (mkHTTPException 404 "Document not found") /\
  download_document document_id reader db' store =
    Raise (mkHTTPException 404 "Document not found") /\
  (forall k, k <> document_id -> documents db' !! k = documents db !! k) /\
  users db' = users db.
Proof.
  unfold delete_document, crud_delete_document, read_document,
    download_document, get_document.
  destruct (documents db !! document_id) as [d0|] eqn:Hk; [|discriminate].
  destruct (document_response_ok d0); [|discriminate].
  intros [= <- <-]. simpl. rewrite lookup_delete_eq.
  split; [reflexivity|]. split; [reflexivity|]. split; [reflexivity|].
  split; [|reflexivity]. intros k Hne. by rewrite lookup_delete_ne.
Qed.

Lemma delete_document_then_404_witness :
  let db := mkDB ∅ 1 {[4 := mkDocument 4 "notes" "notes.txt" 0 (Some 9)]} 5 in
  delete_document 4 viewer_user db =
    (Ok (mkDocument 4 "notes" "notes.txt" 0 (Some 9)), mkDB ∅ 1 ∅ 5) /\
  download_document 4 admin_user (mkDB ∅ 1 ∅ 5)
    {["notes.txt" := [Byte.x41]]} =
    Raise (mkHTTPException 404 "Document not found").
Proof.
  intros db.
  assert (Hok : delete_document 4 viewer_user db =
    (Ok (mkDocument 4 "notes" "notes.txt" 0 (Some 9)), mkDB ∅ 1 ∅ 5)).
  { unfold delete_document, crud_delete_document, get_document, db; simpl.
    rewrite lookup_singleton_eq. by rewrite delete_singleton. }
  split; [exact Hok|].
  exact (proj1 (proj2 (proj2 (delete_document_then_404 4 viewer_user admin_user
    _ _ _ {["notes.txt" := [Byte.x41]]} Hok)))).
Defined.


End DocumentExtras.

Module IngestionExtras.
Import Ingestion IngestionFacts.

Lemma trigger_Ok (d : Z) (m m' : tasks) t :
  trigger d m = Ok (t, m') ->
  t = mkIngestionTask d "pending" None /\ m' = <[d := t]> m.
Proof.
  unfold trigger. destruct (m !! d) as [t0|];
    [destruct (running_status (task_status t0))|];
    first [discriminate | intros [= <- <-]; split; reflexivity].
Qed.

(** A successful trigger stores a [pending] task with no message; a second
    trigger right away is refused with 400; once the background body has
    run, the task is [completed] with the success message, and triggering
    again succeeds and resets it to [pending] with no message. *)
Theorem trigger_run_retrigger (d : Z) (m m1 : tasks) (t : IngestionTask) :
  trigger d m = Ok (t, m1) ->
  t = mkIngestionTask d "pending" None /\ m1 !! d = Some t /\
  trigger d m1 =
    Raise (mkHTTPException 400 ("Ingestion for document ID " ++ pretty d ++
                                " is already pending.")) /\
  exists m2,
    run_final d m1 = Some m2 /\
    m2 !! d = Some (mkIngestionTask d "completed"
                      (Some "Ingestion completed successfully.")) /\
    trigger d m2 = Ok (mkIngestionTask d "pending" None,
                       <[d := mkIngestionTask d "pending" None]> m2).
Proof.
  intros H. apply trigger_Ok in H as [-> ->].
  split; [reflexivity|]. split; [apply lookup_insert_eq|].
  split; [unfold trigger; by rewrite lookup_insert_eq|].
  eexists. split.
  - unfold run_final, process_ingestion_task, set_field.
    repeat (rewrite lookup_insert_eq; simpl). reflexivity.
  - rewrite !insert_insert_eq. split; [apply lookup_insert_eq|].
    unfold trigger. rewrite lookup_insert_eq. simpl.
    by rewrite insert_insert_eq.
Qed.

Lemma trigger_run_retrigger_witness :
  trigger 5 ∅ = Ok (mkIngestionTask 5 "pending" None,
                    {[5%Z := mkIngestionTask 5 "pending" None]}) /\
  run_final 5 {[5%Z := mkIngestionTask 5 "pending" None]} =
    Some {[5%Z := mkIngestionTask 5 "completed"
                    (Some "Ingestion completed successfully.")]}.
Proof.
  assert (H : trigger 5 ∅ = Ok (mkIngestionTask 5 "pending" None,
                    {[5%Z := mkIngestionTask 5 "pending" None]})) by reflexivity.
  split; [exact H|].
  destruct (trigger_run_retrigger 5 ∅ _ _ H) as (_ & _ & _ & m2 & Hr & Hm2 & _).
  rewrite Hr. f_equal. unfold run_final, process_ingestion_task, set_field in Hr.
  simpl in Hr. injection Hr as <-. reflexivity.
Defined.

(** The background body never raises [KeyError], and neither it (at any
    point of its run) nor a successful trigger changes the task of another
    document id. *)
Theorem ingestion_ops_local (d : Z) (m : tasks) :
  (exists tr, process_ingestion_task d m = Some tr /\
     forall m', m' ∈ tr -> forall j, j <> d -> m' !! j = m !! j) /\
  (forall t m', trigger d m = Ok (t, m') -> forall j, j <> d -> m' !! j = m !! j).
Proof.
  split.
  - unfold process_ingestion_task, set_field.
    destruct (m !! d) as [t|] eqn:Hd.
    + simpl. repeat (rewrite lookup_insert_eq; simpl).
      eexists. split; [reflexivity|].
      intros m' Hm' j Hj. rewrite !elem_of_cons, elem_of_nil in Hm'.
      destruct Hm' as [->|[->|[->|[]]]]; by rewrite !lookup_insert_ne.
    + eexists. split; [reflexivity|]. intros m' Hm'.
      by apply not_elem_of_nil in Hm'.
  - intros t m' H j Hj. apply trigger_Ok in H as [_ ->].
    by rewrite lookup_insert_ne.
Qed.

Lemma step_keys doc_exists (m m' : tasks) :
  step doc_exists m m' ->
  (forall d t, m !! d = Some t -> task_document_id t = d) ->
  (forall d t, m' !! d = Some t -> task_document_id t = d) /\
  (forall d, is_Some (m !! d) -> is_Some (m' !! d)).
Proof.
  intros Hs Hk. destruct Hs as [d0 m0 t0 m1 Ht|d0 m0 tr m1 Hp Hin|m0].
  - unfold trigger_ingestion in Ht. destruct (doc_exists d0); [|discriminate].
    apply trigger_Ok in Ht as [-> ->]. split.
    + intros d t Hl. destruct (decide (d0 = d)) as [<-|Hne].
      * rewrite lookup_insert_eq in Hl. by injection Hl as <-.
      * rewrite lookup_insert_ne in Hl by done. eauto.
    + intros d Hd. rewrite lookup_insert. case_decide; [done|exact Hd].
  - unfold process_ingestion_task, set_field in Hp.
    destruct (m0 !! d0) as [t0|] eqn:Hd0;
      [|injection Hp as <-; by apply not_elem_of_nil in Hin].
    simpl in Hp.
    repeat (rewrite lookup_insert_eq in Hp; simpl in Hp). injection Hp as <-.
    assert (Ht0 := Hk _ _ Hd0).
    rewrite !insert_insert_eq in Hin.
    rewrite !elem_of_cons, elem_of_nil in Hin.
    destruct Hin as [->|[->|[->|[]]]]; split;
      try (intros d t Hl; destruct (decide (d0 = d)) as [<-|Hne];
           [rewrite lookup_insert_eq in Hl; injection Hl as <-; exact Ht0
           |rewrite lookup_insert_ne in Hl by done; eauto]);
      intros d Hd; rewrite lookup_insert; case_decide; done.
  - split; [exact Hk|done].
Qed.

(** In every state reachable from the empty mapping, each task is stored
    under its own document id, and once a document id has a task it keeps
    one after any further step: no operation removes an entry. *)
Theorem ingestion_keys_stable (doc_exists : Z -> bool) (m : tasks) :
  reachable doc_exists m ->
  (forall d t, m !! d = Some t -> task_document_id t = d) /\
  (forall m', step doc_exists m m' ->
     forall d, is_Some (m !! d) -> is_Some (m' !! d)).
Proof.
  intros Hr.
  assert (Hk : forall d t, m !! d = Some t -> task_document_id t = d).
  { induction Hr as [|m0 m1 _ IH Hs].
    - intros d t Hl. by rewrite lookup_empty in Hl.
    - exact (proj1 (step_keys _ _ _ Hs IH)). }
  split; [exact Hk|].
  intros m' Hs. exact (proj2 (step_keys _ _ _ Hs Hk)).
Qed.

Lemma ingestion_keys_stable_witness :
  reachable (fun _ => true) {[2%Z := mkIngestionTask 2 "pending" None]} /\
  task_document_id (mkIngestionTask 2 "pending" None) = 2.
Proof.
  assert (Hr : reachable (fun _ => true)
                 {[2%Z := mkIngestionTask 2 "pending" None]}).
  { apply (reach_step _ ∅); [apply reach_init|].
    apply (step_trigger _ 2 ∅ (mkIngestionTask 2 "pending" None)).
    reflexivity. }
  split; [exact Hr|].
  apply (proj1 (ingestion_keys_stable _ _ Hr) 2). reflexivity.
Defined.

End IngestionExtras.
